(** * responsehelper: the response envelope contract

    A shallow embedding of the three revisions of [responsehelper.go] found in
    the repository, and the properties of the envelopes they hand to the
    framework's [c.JSON].

    - [Legacy]    : the oldest file (time-stamped [meta], no request storage);
    - [Helper]    : src/responsehelper.go (reads [meta] from the request);
    - [HelperExt] : the later file, which adds [Conflict], [AlreadyExists],
                    [Forbidden] and [NoContent].

    Every Go method [func (r *responseHelper) Op(c *gin.Context, ...)] becomes
    a computation [Op ... : Handler ()] over the [World] the call can observe
    or change. *)

From stdpp Require Import base strings gmap list.
From Stdlib Require Import ZArith.

Set Warnings "-register-all".
Open Scope Z_scope.

(** ** Go values *)

(** What an [interface{}] holds, as far as the helper builds or forwards it:
    [nil], booleans, integers, strings, slices and [map[string]interface{}]. *)
Inductive any :=
| Nil
| Bool (b : bool)
| Int (n : Z)
| Str (s : string)
| Slice (l : list any)
| Map (m : gmap string any).

(** A Go [error]: the nil interface, or a value whose [Error()] is [text]. *)
Inductive error :=
| NilError
| ErrorString (text : string).

(** ** The world around a call *)

Record World := mkWorld {
  (** [c.Keys]: the request-scoped storage read by [c.Get]. *)
  Keys : gmap string any;
  (** Every [(status, body)] passed to [c.JSON] on this request, oldest first. *)
  Written : list (Z * any);
  (** What [time.Now().Format(time.RFC3339)] evaluates to. *)
  Now : string;
  (** The messages given to [log.Printf], oldest first. *)
  Logged : list string
}.

(** ** Computations that may panic *)

Inductive result (A : Type) :=
| Ok (a : A) (w : World)
| Panic (w : World).
Arguments Ok {A} a w.
Arguments Panic {A} w.

Definition Handler (A : Type) : Type := World → result A.

#[global] Instance Handler_ret : MRet Handler := λ A a w, Ok a w.
#[global] Instance Handler_bind : MBind Handler := λ A B f m w,
  match m w with
  | Ok a w' => f a w'
  | Panic w' => Panic w'
  end.

(** The world a call leaves behind, whether it returned or panicked. *)
Definition final {A} (r : result A) : World :=
  match r with
  | Ok _ w => w
  | Panic w => w
  end.

Definition returned {A} (r : result A) : bool :=
  match r with
  | Ok _ _ => true
  | Panic _ => false
  end.

(** The responses a computation adds to the transport when run from [w]. *)
Definition writes {A} (h : Handler A) (w : World) : list (Z * any) :=
  drop (length (Written w)) (Written (final (h w))).

(** ** The framework and runtime primitives the helper calls *)

Module http.
Definition StatusOK : Z := 200.
Definition StatusCreated : Z := 201.
Definition StatusNoContent : Z := 204.
Definition StatusBadRequest : Z := 400.
Definition StatusUnauthorized : Z := 401.
Definition StatusForbidden : Z := 403.
Definition StatusNotFound : Z := 404.
Definition StatusConflict : Z := 409.
Definition StatusInternalServerError : Z := 500.
End http.

Module gin.
(** [type H map[string]any] *)
Abbreviation H := Map (only parsing).

(** [c.Set(key, value)], as upstream middleware calls it. *)
Definition SetKey (key : string) (value : any) (w : World) : World :=
  {| Keys := <[key := value]> (Keys w); Written := Written w;
     Now := Now w; Logged := Logged w |}.

(** [c.Get(key)]: the stored value and [true], or [nil] and [false]. *)
Definition Get (key : string) : Handler (any * bool) := λ w,
  match Keys w !! key with
  | Some value => Ok (value, true) w
  | None => Ok (Nil, false) w
  end.

(** [c.JSON(code, obj)]: one status-coded write of [obj] to the transport. *)
Definition JSON (code : Z) (obj : any) : Handler () := λ w,
  Ok () {| Keys := Keys w; Written := Written w ++ [(code, obj)];
           Now := Now w; Logged := Logged w |}.
End gin.

(** [err.Error()]: the text of a non-nil error; a nil receiver panics. *)
Definition Error (err : error) : Handler string := λ w,
  match err with
  | ErrorString text => Ok text w
  | NilError => Panic w
  end.

Module time.
(** [time.Now().Format(time.RFC3339)] *)
Definition NowRFC3339 : Handler string := λ w, Ok (Now w) w.
End time.

Module log.
(** The [%v] rendering of an [error] argument. *)
Definition verb_v (err : error) : string :=
  match err with
  | ErrorString text => text
  | NilError => "<nil>"
  end.

(** [log.Printf(format, err)] for a format made of [prefix] and one [%v]. *)
Definition Printf (prefix : string) (err : error) : Handler () := λ w,
  Ok () {| Keys := Keys w; Written := Written w; Now := Now w;
           Logged := Logged w ++ [prefix +:+ verb_v err] |}.
End log.

(** ** Reading an envelope *)

(** The value under key [k] of a map value, if it is one and has the key. *)
Definition field (k : string) (v : any) : option any :=
  match v with
  | Map m => m !! k
  | _ => None
  end.

Definition has_field (k : string) (v : any) : bool :=
  match field k v with
  | Some _ => true
  | None => false
  end.

(** A field of the nested [error] object. *)
Definition error_field (k : string) (envelope : any) : option any :=
  field "error" envelope ≫= field k.

(** The keys of the nested [error] object. *)
Definition error_keys (envelope : any) : option (gset string) :=
  match field "error" envelope with
  | Some (Map m) => Some (dom m)
  | _ => None
  end.

Definition is_2xx (code : Z) : bool := (200 <=? code) && (code <? 300).

(** What the transport carries for a response under a body encoder. *)
Definition on_wire (marshal : any → string) (r : Z * any) : Z * string :=
  (r.1, marshal r.2).

(** ** The interfaces *)

(** A call of one method of [ResponseHelper] as the legacy file and
    src/responsehelper.go declare it, with its arguments after [c]. *)
Inductive call :=
| CallBadRequest (message details : string)
| CallNotFound (message : string)
| CallUnauthorized (message : string)
| CallInternalError (message : string) (err : error)
| CallSuccess (data : any)
| CallSuccessWithPagination (data meta : any)
| CallCreated (data : any)
| CallDeleted (message : string).

(** A call of one method of the later [ResponseHelper]: the eight above and
    the four it adds. *)
Inductive call_ext :=
| Base (k : call)
| CallAlreadyExists (resource : string) (err : error)
| CallConflict (message : string) (err : error)
| CallForbidden (message : string)
| CallNoContent.

(** ** The legacy helper (first file of src/unnamed/part_000) *)

Module Legacy.

Definition BadRequest (message details : string) : Handler () :=
  gin.JSON http.StatusBadRequest (gin.H {[
    "success" := Bool false;
    "error" := gin.H {[
      "code" := Int 400;
      "status" := Str "BAD_REQUEST";
      "message" := Str message;
      "details" := Str details ]} ]}).

Definition NotFound (message : string) : Handler () :=
  gin.JSON http.StatusNotFound (gin.H {[
    "success" := Bool false;
    "error" := gin.H {[
      "code" := Int 404;
      "status" := Str "NOT_FOUND";
      "message" := Str message ]} ]}).

Definition Unauthorized (message : string) : Handler () :=
  gin.JSON http.StatusUnauthorized (gin.H {[
    "success" := Bool false;
    "error" := gin.H {[
      "code" := Int 401;
      "status" := Str "UNAUTHORIZED";
      "message" := Str message ]} ]}).

Definition InternalError (message : string) (err : error) : Handler () :=
  log.Printf "Internal error: " err;;
  details ← Error err;
  gin.JSON http.StatusInternalServerError (gin.H {[
    "success" := Bool false;
    "error" := gin.H {[
      "code" := Int 500;
      "status" := Str "INTERNAL_SERVER_ERROR";
      "message" := Str message;
      "details" := Str details ]};
    "data" := Nil ]}).

Definition Success (data : any) : Handler () :=
  stamp ← time.NowRFC3339;
  gin.JSON http.StatusOK (gin.H {[
    "success" := Bool true;
    "data" := data;
    "meta" := Str stamp ]}).

Definition SuccessWithPagination (data meta : any) : Handler () :=
  gin.JSON http.StatusOK (gin.H {[
    "success" := Bool true;
    "data" := data;
    "pagination" := meta ]}).

Definition Created (data : any) : Handler () :=
  stamp ← time.NowRFC3339;
  gin.JSON http.StatusCreated (gin.H {[
    "success" := Bool true;
    "data" := data;
    "meta" := Str stamp ]}).

Definition Deleted (message : string) : Handler () :=
  stamp ← time.NowRFC3339;
  gin.JSON http.StatusOK (gin.H {[
    "success" := Bool true;
    "message" := Str (message +:+ " deleted successfully");
    "meta" := Str stamp ]}).

Definition invoke (k : call) : Handler () :=
  match k with
  | CallBadRequest message details => BadRequest message details
  | CallNotFound message => NotFound message
  | CallUnauthorized message => Unauthorized message
  | CallInternalError message err => InternalError message err
  | CallSuccess data => Success data
  | CallSuccessWithPagination data meta => SuccessWithPagination data meta
  | CallCreated data => Created data
  | CallDeleted message => Deleted message
  end.

End Legacy.

(** ** The helper of src/responsehelper.go *)

Module Helper.

Definition BadRequest (message details : string) : Handler () :=
  '(meta, _) ← gin.Get "meta";
  gin.JSON http.StatusBadRequest (gin.H {[
    "success" := Bool false;
    "error" := gin.H {[
      "code" := Int 400;
      "status" := Str "BAD_REQUEST";
      "message" := Str message;
      "details" := Str details ]};
    "meta" := meta ]}).

Definition NotFound (message : string) : Handler () :=
  '(meta, _) ← gin.Get "meta";
  gin.JSON http.StatusNotFound (gin.H {[
    "success" := Bool false;
    "error" := gin.H {[
      "code" := Int 404;
      "status" := Str "NOT_FOUND";
      "message" := Str message ]};
    "meta" := meta ]}).

Definition Unauthorized (message : string) : Handler () :=
  '(meta, _) ← gin.Get "meta";
  gin.JSON http.StatusUnauthorized (gin.H {[
    "success" := Bool false;
    "error" := gin.H {[
      "code" := Int 401;
      "status" := Str "UNAUTHORIZED";
      "message" := Str message ]};
    "meta" := meta ]}).

Definition InternalError (message : string) (err : error) : Handler () :=
  '(meta, _) ← gin.Get "meta";
  details ← Error err;
  gin.JSON http.StatusInternalServerError (gin.H {[
    "success" := Bool false;
    "error" := gin.H {[
      "code" := Int 500;
      "status" := Str "INTERNAL_SERVER_ERROR";
      "message" := Str message;
      "details" := Str details ]};
    "data" := Nil;
    "meta" := meta ]}).

Definition Success (data : any) : Handler () :=
  '(meta, _) ← gin.Get "meta";
  gin.JSON http.StatusOK (gin.H {[
    "success" := Bool true;
    "data" := data;
    "meta" := meta ]}).

Definition SuccessWithPagination (data paginationMeta : any) : Handler () :=
  '(meta, _) ← gin.Get "meta";
  gin.JSON http.StatusOK (gin.H {[
    "success" := Bool true;
    "data" := data;
    "pagination" := paginationMeta;
    "meta" := meta ]}).

Definition Created (data : any) : Handler () :=
  '(meta, _) ← gin.Get "meta";
  gin.JSON http.StatusCreated (gin.H {[
    "success" := Bool true;
    "data" := data;
    "meta" := meta ]}).

Definition Deleted (message : string) : Handler () :=
  '(meta, _) ← gin.Get "meta";
  gin.JSON http.StatusOK (gin.H {[
    "success" := Bool true;
    "message" := Str (message +:+ " deleted successfully");
    "meta" := meta ]}).

Definition invoke (k : call) : Handler () :=
  match k with
  | CallBadRequest message details => BadRequest message details
  | CallNotFound message => NotFound message
  | CallUnauthorized message => Unauthorized message
  | CallInternalError message err => InternalError message err
  | CallSuccess data => Success data
  | CallSuccessWithPagination data meta => SuccessWithPagination data meta
  | CallCreated data => Created data
  | CallDeleted message => Deleted message
  end.

End Helper.

(** ** The later helper (second file of src/unnamed/part_000) *)

Module HelperExt.

Definition BadRequest (message details : string) : Handler () :=
  '(meta, _) ← gin.Get "meta";
  gin.JSON http.StatusBadRequest (gin.H {[
    "success" := Bool false;
    "error" := gin.H {[
      "code" := Int 400;
      "status" := Str "BAD_REQUEST";
      "message" := Str message;
      "details" := Str details ]};
    "meta" := meta ]}).

Definition Conflict (message : string) (err : error) : Handler () :=
  '(meta, _) ← gin.Get "meta";
  details ← Error err;
  gin.JSON http.StatusConflict (gin.H {[
    "success" := Bool false;
    "error" := gin.H {[
      "code" := Int 409;
      "status" := Str "CONFLICT";
      "message" := Str message;
      "details" := Str details ]};
    "meta" := meta ]}).

Definition AlreadyExists (resource : string) (err : error) : Handler () :=
  Conflict (resource +:+ " already exists") err.

Definition NotFound (message : string) : Handler () :=
  '(meta, _) ← gin.Get "meta";
  gin.JSON http.StatusNotFound (gin.H {[
    "success" := Bool false;
    "error" := gin.H {[
      "code" := Int 404;
      "status" := Str "NOT_FOUND";
      "message" := Str message ]};
    "meta" := meta ]}).

Definition Unauthorized (message : string) : Handler () :=
  '(meta, _) ← gin.Get "meta";
  gin.JSON http.StatusUnauthorized (gin.H {[
    "success" := Bool false;
    "error" := gin.H {[
      "code" := Int 401;
      "status" := Str "UNAUTHORIZED";
      "message" := Str message ]};
    "meta" := meta ]}).

Definition InternalError (message : string) (err : error) : Handler () :=
  '(meta, _) ← gin.Get "meta";
  details ← Error err;
  gin.JSON http.StatusInternalServerError (gin.H {[
    "success" := Bool false;
    "error" := gin.H {[
      "code" := Int 500;
      "status" := Str "INTERNAL_SERVER_ERROR";
      "message" := Str message;
      "details" := Str details ]};
    "data" := Nil;
    "meta" := meta ]}).

Definition Success (data : any) : Handler () :=
  '(meta, _) ← gin.Get "meta";
  gin.JSON http.StatusOK (gin.H {[
    "success" := Bool true;
    "data" := data;
    "meta" := meta ]}).

Definition SuccessWithPagination (data paginationMeta : any) : Handler () :=
  '(meta, _) ← gin.Get "meta";
  gin.JSON http.StatusOK (gin.H {[
    "success" := Bool true;
    "data" := data;
    "pagination" := paginationMeta;
    "meta" := meta ]}).

Definition Created (data : any) : Handler () :=
  '(meta, _) ← gin.Get "meta";
  gin.JSON http.StatusCreated (gin.H {[
    "success" := Bool true;
    "data" := data;
    "meta" := meta ]}).

Definition Deleted (message : string) : Handler () :=
  '(meta, _) ← gin.Get "meta";
  gin.JSON http.StatusOK (gin.H {[
    "success" := Bool true;
    "message" := Str (message +:+ " deleted successfully");
    "meta" := meta ]}).

Definition Forbidden (message : string) : Handler () :=
  '(meta, _) ← gin.Get "meta";
  gin.JSON http.StatusForbidden (gin.H {[
    "success" := Bool false;
    "error" := gin.H {[
      "code" := Int 403;
      "status" := Str "FORBIDDEN";
      "message" := Str message ]};
    "meta" := meta ]}).

Definition NoContent : Handler () :=
  '(meta, _) ← gin.Get "meta";
  gin.JSON http.StatusNoContent (gin.H {[
    "success" := Bool true;
    "data" := Nil;
    "meta" := meta ]}).

Definition invoke_base (k : call) : Handler () :=
  match k with
  | CallBadRequest message details => BadRequest message details
  | CallNotFound message => NotFound message
  | CallUnauthorized message => Unauthorized message
  | CallInternalError message err => InternalError message err
  | CallSuccess data => Success data
  | CallSuccessWithPagination data meta => SuccessWithPagination data meta
  | CallCreated data => Created data
  | CallDeleted message => Deleted message
  end.

Definition invoke (k : call_ext) : Handler () :=
  match k with
  | Base k => invoke_base k
  | CallAlreadyExists resource err => AlreadyExists resource err
  | CallConflict message err => Conflict message err
  | CallForbidden message => Forbidden message
  | CallNoContent => NoContent
  end.

End HelperExt.

(** ** Classifying calls *)

(** The [error] argument of a call, for the methods that take one. *)
Definition error_of (k : call) : option error :=
  match k with
  | CallInternalError _ err => Some err
  | _ => None
  end.

Definition error_of_ext (k : call_ext) : option error :=
  match k with
  | Base k => error_of k
  | CallAlreadyExists _ err | CallConflict _ err => Some err
  | _ => None
  end.

(** The caller's side of the contract: no nil [error] is passed. *)
Definition no_nil_error (k : call) : bool :=
  match error_of k with
  | Some NilError => false
  | _ => true
  end.

Definition no_nil_error_ext (k : call_ext) : bool :=
  match error_of_ext k with
  | Some NilError => false
  | _ => true
  end.

(** The success family: [Success], [Created], [SuccessWithPagination],
    [Deleted] (and [NoContent] in the later interface). *)
Definition success_family (k : call) : bool :=
  match k with
  | CallSuccess _ | CallSuccessWithPagination _ _
  | CallCreated _ | CallDeleted _ => true
  | _ => false
  end.

Definition success_family_ext (k : call_ext) : bool :=
  match k with
  | Base k => success_family k
  | CallNoContent => true
  | _ => false
  end.

Definition is_InternalError (k : call) : bool :=
  match k with
  | CallInternalError _ _ => true
  | _ => false
  end.

Definition is_Deleted (k : call) : bool :=
  match k with
  | CallDeleted _ => true
  | _ => false
  end.

Definition is_InternalError_ext (k : call_ext) : bool :=
  match k with
  | Base k => is_InternalError k
  | _ => false
  end.

Definition is_Deleted_ext (k : call_ext) : bool :=
  match k with
  | Base k => is_Deleted k
  | _ => false
  end.

(** A request on which nothing was stored, written or logged yet. *)
Definition fresh (now : string) : World :=
  {| Keys := ∅; Written := []; Now := now; Logged := [] |}.

(** ** Properties of one call *)

(** The call returns after exactly one write, of [envelope] under [code]. *)
Definition sends
    (h : Handler ()) (w : World) (code : Z) (envelope : any) : Prop :=
  returned (h w) = true ∧ writes h w = [(code, envelope)].

(** The envelope's [meta] is the stored value, and is missing when there is
    none. *)
Definition meta_passes_through (h : Handler ()) (w : World) : Prop :=
  ∀ code envelope, sends h w code envelope →
    field "meta" envelope = Keys w !! "meta".

(** The envelope always has a [meta] field: the stored value, or [nil]. *)
Definition meta_echoed (h : Handler ()) (w : World) : Prop :=
  ∃ code envelope, sends h w code envelope ∧
    (∀ value, Keys w !! "meta" = Some value →
       field "meta" envelope = Some value) ∧
    (Keys w !! "meta" = None → field "meta" envelope = Some Nil).

(** The legacy methods that stamp [meta] with the current time. *)
Definition stamps_time (k : call) : bool :=
  match k with
  | CallSuccess _ | CallCreated _ | CallDeleted _ => true
  | _ => false
  end.

(** The legacy envelope's [meta]: the clock reading, or no field. *)
Definition meta_from_clock
    (stamped : bool) (h : Handler ()) (w : World) : Prop :=
  ∃ code envelope, sends h w code envelope ∧
    field "meta" envelope = (if stamped then Some (Str (Now w)) else None).

(** [success] is true exactly for a 2xx status, which is what the [family]
    of the method says. *)
Definition success_matches_status
    (family : bool) (h : Handler ()) (w : World) : Prop :=
  ∃ code envelope, sends h w code envelope ∧
    field "success" envelope = Some (Bool (is_2xx code)) ∧
    is_2xx code = family.

(** The shape of an [InternalError] response. *)
Definition internal_error_shape
    (message text : string) (h : Handler ()) (w : World) : Prop :=
  ∃ envelope, sends h w 500 envelope ∧
    field "data" envelope = Some Nil ∧
    error_field "code" envelope = Some (Int 500) ∧
    error_field "status" envelope = Some (Str "INTERNAL_SERVER_ERROR") ∧
    error_field "message" envelope = Some (Str message) ∧
    error_field "details" envelope = Some (Str text).

(** Exactly one of [data] and [error] is a field of the envelope. *)
Definition one_of_data_error (envelope : any) : Prop :=
  xorb (has_field "data" envelope) (has_field "error" envelope) = true.

(** [data]/[error] per method, and [error] only outside 2xx. *)
Definition data_error_shape
    (internal deleted : bool) (h : Handler ()) (w : World) : Prop :=
  ∃ code envelope, sends h w code envelope ∧
    (if internal then
       has_field "error" envelope = true ∧ field "data" envelope = Some Nil
     else if deleted then
       has_field "data" envelope = false ∧ has_field "error" envelope = false
     else one_of_data_error envelope) ∧
    has_field "error" envelope = negb (is_2xx code).

(** The shape of a [BadRequest] response. *)
Definition bad_request_shape
    (message details : string) (h : Handler ()) (w : World) : Prop :=
  ∃ envelope, sends h w 400 envelope ∧
    field "success" envelope = Some (Bool false) ∧
    error_field "code" envelope = Some (Int 400) ∧
    error_field "status" envelope = Some (Str "BAD_REQUEST") ∧
    error_field "message" envelope = Some (Str message) ∧
    error_field "details" envelope = Some (Str details).

(** The shape of a [Deleted] response. *)
Definition deleted_shape (noun : string) (h : Handler ()) (w : World) : Prop :=
  ∃ envelope, sends h w 200 envelope ∧
    field "success" envelope = Some (Bool true) ∧
    field "message" envelope =
      Some (Str (noun +:+ " deleted successfully")).

(** The [error] object has [code], [status] and [message], and nothing else. *)
Definition error_without_details (h : Handler ()) (w : World) : Prop :=
  ∃ code envelope, sends h w code envelope ∧
    error_keys envelope = Some {[ "code"; "status"; "message" ]} ∧
    error_field "details" envelope = None.

(** [op] reads the text of its [error] argument without a nil check: it
    returns with that text as [details], and panics before writing anything
    when the argument is nil. *)
Definition dereferences_error (op : error → Handler ()) (w : World) : Prop :=
  (∀ text, ∃ code envelope,
     sends (op (ErrorString text)) w code envelope ∧
     error_field "details" envelope = Some (Str text)) ∧
  (returned (op NilError w) = false ∧ writes (op NilError) w = []).

(** Two worlds that agree on the value stored under ["meta"]. *)
Definition same_meta (w1 w2 : World) : Prop :=
  Keys w1 !! "meta" = Keys w2 !! "meta".

(** The status and envelope depend on the world through ["meta"] alone. *)
Definition deterministic (h : Handler ()) : Prop :=
  ∀ w1 w2, same_meta w1 w2 → writes h w1 = writes h w2.

(** ** Reading a call and its response *)

(** The whole effect of appending [responses] to the transport of [w]. *)
Definition appended (w : World) (responses : list (Z * any)) : World :=
  {| Keys := Keys w; Written := Written w ++ responses;
     Now := Now w; Logged := Logged w |}.

(** The same, after [lines] were logged. *)
Definition appended_logging
    (w : World) (lines : list string) (responses : list (Z * any)) : World :=
  {| Keys := Keys w; Written := Written w ++ responses;
     Now := Now w; Logged := Logged w ++ lines |}.

(** The keys of an envelope. *)
Definition envelope_keys (envelope : any) : gset string :=
  match envelope with
  | Map m => dom m
  | _ => ∅
  end.






Definition is_SuccessWithPagination (k : call_ext) : bool :=
  match k with
  | Base (CallSuccessWithPagination _ _) => true
  | _ => false
  end.

(** A response with the [meta] entry of its envelope removed. *)
Definition without_meta (r : Z * any) : Z * any :=
  match r.2 with
  | Map m => (r.1, Map (delete "meta" m))
  | _ => r
  end.

(** The line the legacy [InternalError] logs; its other methods log none. *)
Definition legacy_log (k : call) : list string :=
  match k with
  | CallInternalError _ err => ["Internal error: " +:+ log.verb_v err]
  | _ => []
  end.

(** ** A caller: the [Login] handler of the README *)

(** [strings.Contains(s, substr)] *)
Fixpoint Contains (s substr : string) : bool :=
  String.prefix substr s ||
  match s with
  | String _ rest => Contains rest substr
  | EmptyString => false
  end.

(** What the handler takes from its application: the sentinel errors of its
    [utils] package and the text [utils.NewReaction(err).Reaction()]. *)
Record utils := {
  ErrBadRequest : error;
  ErrDetailBadRequestJSONPayload : error;
  ErrNotFound : error;
  ErrEmailorPasswordEmpty : error;
  Reaction : error → string
}.

(** [(h *userHandler) Login], with [bindErr] the result of
    [c.ShouldBindJSON(&loginData)] and [(token, err)] that of
    [h.userService.Login(loginData.Email, loginData.Password)]. Its
    [h.responseHelper] is the later helper, which src/responsehelper.go
    agrees with on the methods used here. *)
Definition Login
    (u : utils) (bindErr : error) (token : string) (err : error) :
    Handler () :=
  match bindErr with
  | ErrorString _ =>
      message ← Error (ErrBadRequest u);
      details ← Error (ErrDetailBadRequestJSONPayload u);
      HelperExt.BadRequest message details
  | NilError =>
      match err with
      | ErrorString _ =>
          let reaction := Reaction u err in
          text ← Error err;
          notFound ← Error (ErrNotFound u);
          if Contains text notFound then
            message ← Error (ErrEmailorPasswordEmpty u);
            HelperExt.Unauthorized message
          else
            HelperExt.InternalError reaction err
      | NilError =>
          let data := Map {[ "token" := Str token ]} in
          HelperExt.Success data
      end
  end.

(** The sentinel errors are set. *)
Definition sentinels_set (u : utils) : bool :=
  match ErrBadRequest u, ErrDetailBadRequestJSONPayload u,
        ErrNotFound u, ErrEmailorPasswordEmpty u with
  | ErrorString _, ErrorString _, ErrorString _, ErrorString _ => true
  | _, _, _, _ => false
  end.

(** The status [Login] answers with. *)
Definition Login_status (u : utils) (bindErr err : error) : Z :=
  match bindErr with
  | ErrorString _ => 400
  | NilError =>
      match err, ErrNotFound u with
      | ErrorString text, ErrorString notFound =>
          if Contains text notFound then 401 else 500
      | ErrorString _, NilError => 500
      | NilError, _ => 200
      end
  end.

(** Sentinels and a reaction as an application might set them. *)
Definition example_utils : utils :=
  {| ErrBadRequest := ErrorString "bad request";
     ErrDetailBadRequestJSONPayload := ErrorString "invalid JSON payload";
     ErrNotFound := ErrorString "not found";
     ErrEmailorPasswordEmpty := ErrorString "email or password is wrong";
     Reaction := λ _, "something went wrong" |}.

(** ** Properties of every call *)


(** The envelope has no key outside the six of the contract, always has
    [success], and has [meta], [pagination] and [message] as given. *)
Definition keys_in_contract
    (meta paginated deleted : bool) (h : Handler ()) (w : World) : Prop :=
  ∃ code envelope, sends h w code envelope ∧
    envelope_keys envelope ⊆
      {[ "success"; "data"; "error"; "meta"; "message"; "pagination" ]} ∧
    has_field "success" envelope = true ∧
    has_field "meta" envelope = meta ∧
    has_field "pagination" envelope = paginated ∧
    has_field "message" envelope = deleted.

(** The call returns exactly when [contract] holds, and then writes one
    response; otherwise it writes none. *)
Definition returns_iff (contract : bool) (h : Handler ()) (w : World) : Prop :=
  returned (h w) = contract ∧
  length (writes h w) = (if contract then 1%nat else 0%nat).

(** ** Running a computation *)

Create HintDb ops.
#[global] Hint Unfold
  Legacy.invoke Legacy.BadRequest Legacy.NotFound Legacy.Unauthorized
  Legacy.InternalError Legacy.Success Legacy.SuccessWithPagination
  Legacy.Created Legacy.Deleted
  Helper.invoke Helper.BadRequest Helper.NotFound Helper.Unauthorized
  Helper.InternalError Helper.Success Helper.SuccessWithPagination
  Helper.Created Helper.Deleted
  HelperExt.invoke HelperExt.invoke_base HelperExt.BadRequest
  HelperExt.NotFound HelperExt.Unauthorized HelperExt.InternalError
  HelperExt.Success HelperExt.SuccessWithPagination HelperExt.Created
  HelperExt.Deleted HelperExt.AlreadyExists HelperExt.Conflict
  HelperExt.Forbidden HelperExt.NoContent : ops.

Section Run.
Context {A : Type}.
Implicit Types (h : Handler A) (w : World).

Lemma Get_bind key (f : any * bool → Handler A) w :
  (gin.Get key ≫= f) w =
  f (default Nil (Keys w !! key), bool_decide (is_Some (Keys w !! key))) w.
Proof.
  unfold mbind, Handler_bind, gin.Get.
  destruct (Keys w !! key) as [value|]; reflexivity.
Qed.

Lemma Error_bind text (f : string → Handler A) w :
  (Error (ErrorString text) ≫= f) w = f text w.
Proof. reflexivity. Qed.

Lemma Error_nil_bind (f : string → Handler A) w :
  (Error NilError ≫= f) w = Panic w.
Proof. reflexivity. Qed.

Lemma Now_bind (f : string → Handler A) w :
  (time.NowRFC3339 ≫= f) w = f (Now w) w.
Proof. reflexivity. Qed.

Lemma Printf_bind prefix err (f : () → Handler A) w :
  (log.Printf prefix err ≫= f) w =
  f () {| Keys := Keys w; Written := Written w; Now := Now w;
          Logged := Logged w ++ [prefix +:+ log.verb_v err] |}.
Proof. reflexivity. Qed.

End Run.

(** A call that returns having appended one response sends it. *)
Lemma sends_intro (h : Handler ()) w code obj lines :
  h w = Ok () {| Keys := Keys w; Written := Written w ++ [(code, obj)];
                 Now := Now w; Logged := lines |} →
  sends h w code obj.
Proof.
  intros Hh. unfold sends, writes. rewrite Hh. cbn.
  by rewrite drop_app_length.
Qed.

(** A call that panics with the transport as it found it wrote nothing. *)
Lemma writes_panic {A} (h : Handler A) w w' :
  h w = Panic w' →
  Written w' = Written w →
  returned (h w) = false ∧ writes h w = [].
Proof.
  intros Hh Hw. unfold writes. rewrite Hh. cbn. split; [done|].
  rewrite Hw. apply drop_all.
Qed.

(** What [writes] sees of a world right after one [c.JSON]. *)
Lemma drop_JSON code obj w w' :
  Written w' = Written w →
  drop (length (Written w)) (Written (final (gin.JSON code obj w'))) =
  [(code, obj)].
Proof. intros Hw. cbn. by rewrite Hw, drop_app_length. Qed.

(** Unfold a method and step through its primitives. *)
Ltac run :=
  autounfold with ops;
  repeat (first [ rewrite Get_bind | rewrite Error_bind
                | rewrite Error_nil_bind | rewrite Now_bind
                | rewrite Printf_bind ];
          cbv beta iota).

(** Run a call that returns, naming the response it sends. *)
Ltac sent := eapply sends_intro; run; reflexivity.

(** * C1: the [meta] field *)

Section Meta.

Lemma Helper_meta_echoed k w :
  no_nil_error k = true → meta_echoed (Helper.invoke k) w.
Proof.
  intros Hk.
  destruct k; try destruct err; try discriminate Hk;
    (eexists _, _; split; [sent|]; split;
     [intros value Hv; rewrite Hv | intros Hn; rewrite Hn]; reflexivity).
Qed.

Lemma HelperExt_meta_echoed k w :
  no_nil_error_ext k = true → meta_echoed (HelperExt.invoke k) w.
Proof.
  intros Hk.
  destruct k as [[]| | | |]; try destruct err; try discriminate Hk;
    (eexists _, _; split; [sent|]; split;
     [intros value Hv; rewrite Hv | intros Hn; rewrite Hn]; reflexivity).
Qed.

Lemma Legacy_meta_from_clock k w :
  no_nil_error k = true →
  meta_from_clock (stamps_time k) (Legacy.invoke k) w.
Proof.
  intros Hk.
  destruct k; try destruct err; try discriminate Hk;
    (eexists _, _; split; [sent | reflexivity]).
Qed.

End Meta.

(** C1, as stated, fails twice. With nothing stored under ["meta"],
    [HelperExt.Success] still writes a [meta] field (holding [nil]), so the
    field is not absent; and with ["req-42"] stored, [Legacy.Success] writes
    the clock reading instead of the stored value. *)
Lemma meta_pass_through_fails :
  ¬ meta_passes_through (HelperExt.Success (Str "payload"))
      (fresh "2025-10-01T00:00:00Z") ∧
  ¬ meta_passes_through (Legacy.Success (Str "payload"))
      (gin.SetKey "meta" (Str "req-42") (fresh "2025-10-01T00:00:00Z")).
Proof.
  split; intros Hclaim.
  - assert (Hsent : ∃ envelope,
      sends (HelperExt.Success (Str "payload"))
        (fresh "2025-10-01T00:00:00Z") 200 envelope ∧
      field "meta" envelope = Some Nil)
      by (eexists; split; [sent | reflexivity]).
    destruct Hsent as (envelope & Hsent & Hmeta).
    specialize (Hclaim _ _ Hsent). rewrite Hmeta in Hclaim.
    discriminate Hclaim.
  - assert (Hsent : ∃ envelope,
      sends (Legacy.Success (Str "payload"))
        (gin.SetKey "meta" (Str "req-42") (fresh "2025-10-01T00:00:00Z"))
        200 envelope ∧
      field "meta" envelope = Some (Str "2025-10-01T00:00:00Z"))
      by (eexists; split; [sent | reflexivity]).
    destruct Hsent as (envelope & Hsent & Hmeta).
    specialize (Hclaim _ _ Hsent). rewrite Hmeta in Hclaim.
    vm_compute in Hclaim. discriminate Hclaim.
Qed.

(** C1, amended: every method of src/responsehelper.go and of the later
    helper sends an envelope that always has a [meta] field; it holds the
    value stored under the request's ["meta"] key, and [nil] (not absence)
    when nothing was stored. The legacy helper never reads the storage: its
    [Success], [Created] and [Deleted] put the current time under [meta] and
    its other methods send no [meta] field. *)
Theorem meta_field_always_present (k : call) (k' : call_ext) (w : World) :
  no_nil_error k = true →
  no_nil_error_ext k' = true →
  meta_echoed (Helper.invoke k) w ∧
  meta_echoed (HelperExt.invoke k') w ∧
  meta_from_clock (stamps_time k) (Legacy.invoke k) w.
Proof.
  intros Hk Hk'. split; [|split].
  - by apply Helper_meta_echoed.
  - by apply HelperExt_meta_echoed.
  - by apply Legacy_meta_from_clock.
Qed.

Lemma meta_field_always_present_witness :
  no_nil_error (CallInternalError "lookup failed" (ErrorString "db down"))
    = true ∧
  no_nil_error_ext (CallAlreadyExists "User" (ErrorString "duplicate key"))
    = true ∧
  (meta_echoed
     (Helper.invoke
        (CallInternalError "lookup failed" (ErrorString "db down")))
     (gin.SetKey "meta" (Str "req-42") (fresh "2025-10-01T00:00:00Z")) ∧
   meta_echoed
     (HelperExt.invoke
        (CallAlreadyExists "User" (ErrorString "duplicate key")))
     (gin.SetKey "meta" (Str "req-42") (fresh "2025-10-01T00:00:00Z")) ∧
   meta_from_clock
     (stamps_time (CallInternalError "lookup failed" (ErrorString "db down")))
     (Legacy.invoke
        (CallInternalError "lookup failed" (ErrorString "db down")))
     (gin.SetKey "meta" (Str "req-42") (fresh "2025-10-01T00:00:00Z"))).
Proof.
  split; [reflexivity|]. split; [reflexivity|].
  apply (meta_field_always_present
           (CallInternalError "lookup failed" (ErrorString "db down"))
           (CallAlreadyExists "User" (ErrorString "duplicate key"))
           (gin.SetKey "meta" (Str "req-42") (fresh "2025-10-01T00:00:00Z")));
    reflexivity.
Defined.

(** * C2: [AlreadyExists] is [Conflict] with a fixed suffix *)

(** C2: for every request, resource and non-nil error, [AlreadyExists] does
    what [Conflict] does with [resource + " already exists"]: the same run,
    status 409, the same envelope, and so the same bytes under whatever
    encoder the transport applies. *)
Theorem AlreadyExists_as_Conflict
    (marshal : any → string) (resource text : string) (w : World) :
  HelperExt.AlreadyExists resource (ErrorString text) w =
    HelperExt.Conflict (resource +:+ " already exists") (ErrorString text) w ∧
  (∃ envelope,
     sends (HelperExt.AlreadyExists resource (ErrorString text)) w
       409 envelope ∧
     sends (HelperExt.Conflict (resource +:+ " already exists")
              (ErrorString text)) w 409 envelope ∧
     error_field "message" envelope =
       Some (Str (resource +:+ " already exists"))) ∧
  on_wire marshal <$>
    writes (HelperExt.AlreadyExists resource (ErrorString text)) w =
  on_wire marshal <$>
    writes (HelperExt.Conflict (resource +:+ " already exists")
              (ErrorString text)) w.
Proof.
  assert (Hsame :
    HelperExt.AlreadyExists resource (ErrorString text) w =
    HelperExt.Conflict (resource +:+ " already exists") (ErrorString text) w)
    by reflexivity.
  split; [exact Hsame|]. split.
  - eexists. split; [|split].
    + sent.
    + sent.
    + reflexivity.
  - unfold writes. by rewrite Hsame.
Qed.

(** The example of C2: ["User"] and an error from the store. *)
Example AlreadyExists_User :
  ∃ envelope,
    sends (HelperExt.AlreadyExists "User" (ErrorString "duplicate key"))
      (fresh "2025-10-01T00:00:00Z") 409 envelope ∧
    sends (HelperExt.Conflict "User already exists"
             (ErrorString "duplicate key"))
      (fresh "2025-10-01T00:00:00Z") 409 envelope ∧
    error_field "message" envelope = Some (Str "User already exists") ∧
    error_field "details" envelope = Some (Str "duplicate key").
Proof. eexists. repeat split; try sent; reflexivity. Qed.

(** * C3: [success] against the status *)

Section SuccessFlag.

Local Ltac by_method Hk :=
  try (match goal with err : error |- _ => destruct err end);
  try discriminate Hk;
  eexists _, _; split; [sent|]; split; reflexivity.

Lemma Legacy_success_flag k w :
  no_nil_error k = true →
  success_matches_status (success_family k) (Legacy.invoke k) w.
Proof. intros Hk. destruct k; by_method Hk. Qed.

Lemma Helper_success_flag k w :
  no_nil_error k = true →
  success_matches_status (success_family k) (Helper.invoke k) w.
Proof. intros Hk. destruct k; by_method Hk. Qed.

Lemma HelperExt_success_flag k w :
  no_nil_error_ext k = true →
  success_matches_status (success_family_ext k) (HelperExt.invoke k) w.
Proof. intros Hk. destruct k as [[]| | | |]; by_method Hk. Qed.

End SuccessFlag.

(** C3: in each of the three helpers, every method sends an envelope whose
    [success] is [true] exactly when the status written is 2xx; the status is
    2xx for [Success], [Created], [SuccessWithPagination], [Deleted] and
    [NoContent], and not for [BadRequest], [Unauthorized], [Forbidden],
    [NotFound], [Conflict], [AlreadyExists] and [InternalError]. *)
Theorem success_iff_2xx (k : call) (k' : call_ext) (w : World) :
  no_nil_error k = true →
  no_nil_error_ext k' = true →
  success_matches_status (success_family k) (Legacy.invoke k) w ∧
  success_matches_status (success_family k) (Helper.invoke k) w ∧
  success_matches_status (success_family_ext k') (HelperExt.invoke k') w.
Proof.
  intros Hk Hk'.
  auto using Legacy_success_flag, Helper_success_flag,
    HelperExt_success_flag.
Qed.

Lemma success_iff_2xx_witness :
  no_nil_error (CallDeleted "qualification") = true ∧
  no_nil_error_ext (CallConflict "Resource conflict" (ErrorString "taken"))
    = true ∧
  (success_matches_status (success_family (CallDeleted "qualification"))
     (Legacy.invoke (CallDeleted "qualification"))
     (fresh "2025-10-01T00:00:00Z") ∧
   success_matches_status (success_family (CallDeleted "qualification"))
     (Helper.invoke (CallDeleted "qualification"))
     (fresh "2025-10-01T00:00:00Z") ∧
   success_matches_status
     (success_family_ext
        (CallConflict "Resource conflict" (ErrorString "taken")))
     (HelperExt.invoke
        (CallConflict "Resource conflict" (ErrorString "taken")))
     (fresh "2025-10-01T00:00:00Z")).
Proof.
  split; [reflexivity|]. split; [reflexivity|].
  apply (success_iff_2xx (CallDeleted "qualification")
           (CallConflict "Resource conflict" (ErrorString "taken"))
           (fresh "2025-10-01T00:00:00Z")); reflexivity.
Defined.

(** * C4, C6, C7, C8: the shape of single responses *)

(** C4: for every message and every non-nil error, [InternalError] (in each
    of the three helpers) writes status 500 and an envelope with a top-level
    [data] field equal to [nil] and an error object with code 500, status
    ["INTERNAL_SERVER_ERROR"], the given message, and the error's text as
    details, whatever the message is. *)
Theorem InternalError_shape (message text : string) (w : World) :
  internal_error_shape message text
    (Legacy.InternalError message (ErrorString text)) w ∧
  internal_error_shape message text
    (Helper.InternalError message (ErrorString text)) w ∧
  internal_error_shape message text
    (HelperExt.InternalError message (ErrorString text)) w.
Proof.
  unfold internal_error_shape.
  split; [|split]; (eexists; split; [sent|]); by repeat split.
Qed.

(** C6: for all message and details strings, [BadRequest] (in each of the
    three helpers) writes status 400 and an envelope with [success] false and
    an error object with code 400, status ["BAD_REQUEST"], and the message
    and details given. *)
Theorem BadRequest_shape (message details : string) (w : World) :
  bad_request_shape message details (Legacy.BadRequest message details) w ∧
  bad_request_shape message details (Helper.BadRequest message details) w ∧
  bad_request_shape message details (HelperExt.BadRequest message details) w.
Proof.
  unfold bad_request_shape.
  split; [|split]; (eexists; split; [sent|]); by repeat split.
Qed.

(** C7: for every noun, [Deleted] (in each of the three helpers) writes
    status 200 and an envelope with [success] true and [message] equal to
    the noun followed by [" deleted successfully"]. *)
Theorem Deleted_message (noun : string) (w : World) :
  deleted_shape noun (Legacy.Deleted noun) w ∧
  deleted_shape noun (Helper.Deleted noun) w ∧
  deleted_shape noun (HelperExt.Deleted noun) w.
Proof.
  unfold deleted_shape.
  split; [|split]; (eexists; split; [sent|]); by repeat split.
Qed.

(** The example of C7, run on a request that carries a correlation id. *)
Example Deleted_qualification :
  ∃ envelope,
    sends (HelperExt.Deleted "qualification")
      (gin.SetKey "meta" (Str "req-42") (fresh "2025-10-01T00:00:00Z"))
      200 envelope ∧
    field "message" envelope =
      Some (Str "qualification deleted successfully").
Proof. eexists. split; [sent | reflexivity]. Qed.

(** C8: for every message, the error objects of [NotFound] and
    [Unauthorized] (in each of the three helpers) and of [Forbidden] have
    exactly the fields [code], [status] and [message]; there is no
    [details]. *)
Theorem no_details_in_plain_errors (message : string) (w : World) :
  (error_without_details (Legacy.NotFound message) w ∧
   error_without_details (Legacy.Unauthorized message) w) ∧
  (error_without_details (Helper.NotFound message) w ∧
   error_without_details (Helper.Unauthorized message) w) ∧
  (error_without_details (HelperExt.NotFound message) w ∧
   error_without_details (HelperExt.Unauthorized message) w ∧
   error_without_details (HelperExt.Forbidden message) w).
Proof.
  unfold error_without_details.
  repeat match goal with |- _ ∧ _ => split end;
    (eexists _, _; split; [sent|]; split; reflexivity).
Qed.

(** * C9: the error argument is read without a nil check *)

Section NilError.
Variable w : World.

Lemma Legacy_InternalError_dereferences message :
  dereferences_error (Legacy.InternalError message) w.
Proof.
  split.
  - intros text. eexists _, _. split; [sent | reflexivity].
  - eapply writes_panic; [run|]; reflexivity.
Qed.

Lemma Helper_InternalError_dereferences message :
  dereferences_error (Helper.InternalError message) w.
Proof.
  split.
  - intros text. eexists _, _. split; [sent | reflexivity].
  - eapply writes_panic; [run|]; reflexivity.
Qed.

Lemma HelperExt_InternalError_dereferences message :
  dereferences_error (HelperExt.InternalError message) w.
Proof.
  split.
  - intros text. eexists _, _. split; [sent | reflexivity].
  - eapply writes_panic; [run|]; reflexivity.
Qed.

Lemma HelperExt_Conflict_dereferences message :
  dereferences_error (HelperExt.Conflict message) w.
Proof.
  split.
  - intros text. eexists _, _. split; [sent | reflexivity].
  - eapply writes_panic; [run|]; reflexivity.
Qed.

(** [AlreadyExists] inherits the behaviour of the [Conflict] it calls. *)
Lemma HelperExt_AlreadyExists_dereferences resource :
  dereferences_error (HelperExt.AlreadyExists resource) w.
Proof. apply HelperExt_Conflict_dereferences. Qed.

End NilError.

(** C9: [InternalError] (in each of the three helpers), [Conflict] and
    [AlreadyExists] call the error's [Error()] with no nil check. Given a
    non-nil error the call returns, having written [details] equal to the
    error's text; given a nil error it panics and no response is written:
    there is no branch that handles it. *)
Theorem error_text_read_unconditionally (message : string) (w : World) :
  dereferences_error (Legacy.InternalError message) w ∧
  dereferences_error (Helper.InternalError message) w ∧
  dereferences_error (HelperExt.InternalError message) w ∧
  dereferences_error (HelperExt.Conflict message) w ∧
  dereferences_error (HelperExt.AlreadyExists message) w.
Proof.
  auto 6 using Legacy_InternalError_dereferences,
    Helper_InternalError_dereferences, HelperExt_InternalError_dereferences,
    HelperExt_Conflict_dereferences, HelperExt_AlreadyExists_dereferences.
Qed.

(** * C5: [data] and [error] *)

(** C5, as stated, fails on [Deleted]: it is not [InternalError], yet its
    envelope has neither a [data] nor an [error] field (it carries
    [message]), so it does not populate exactly one of the two. *)
Lemma Deleted_has_neither_data_nor_error :
  is_InternalError_ext (Base (CallDeleted "qualification")) = false ∧
  ∃ envelope,
    sends (HelperExt.invoke (Base (CallDeleted "qualification")))
      (fresh "2025-10-01T00:00:00Z") 200 envelope ∧
    has_field "data" envelope = false ∧
    has_field "error" envelope = false ∧
    ¬ one_of_data_error envelope.
Proof.
  split; [reflexivity|].
  eexists. split; [sent|].
  split; [reflexivity|]. split; [reflexivity|].
  unfold one_of_data_error. vm_compute. discriminate.
Qed.

Section DataError.

Local Ltac by_method Hk :=
  try (match goal with err : error |- _ => destruct err end);
  try discriminate Hk;
  eexists _, _; split; [sent|]; split;
  [first [ split; reflexivity | reflexivity ] | reflexivity].

Lemma Legacy_data_error k w :
  no_nil_error k = true →
  data_error_shape (is_InternalError k) (is_Deleted k) (Legacy.invoke k) w.
Proof. intros Hk. destruct k; by_method Hk. Qed.

Lemma Helper_data_error k w :
  no_nil_error k = true →
  data_error_shape (is_InternalError k) (is_Deleted k) (Helper.invoke k) w.
Proof. intros Hk. destruct k; by_method Hk. Qed.

Lemma HelperExt_data_error k w :
  no_nil_error_ext k = true →
  data_error_shape (is_InternalError_ext k) (is_Deleted_ext k)
    (HelperExt.invoke k) w.
Proof. intros Hk. destruct k as [[]| | | |]; by_method Hk. Qed.

End DataError.

(** C5, amended: in each of the three helpers, every envelope has exactly
    one of the fields [data] and [error], with two exceptions: that of
    [InternalError] has both, with [data] equal to [nil], and that of
    [Deleted] has neither. An envelope has an [error] field exactly when its
    status is not 2xx, so no 2xx response carries an error object and no
    error object is sent with a 2xx status. *)
Theorem data_xor_error_except_two (k : call) (k' : call_ext) (w : World) :
  no_nil_error k = true →
  no_nil_error_ext k' = true →
  data_error_shape (is_InternalError k) (is_Deleted k) (Legacy.invoke k) w ∧
  data_error_shape (is_InternalError k) (is_Deleted k) (Helper.invoke k) w ∧
  data_error_shape (is_InternalError_ext k') (is_Deleted_ext k')
    (HelperExt.invoke k') w.
Proof.
  intros Hk Hk'. split; [|split].
  - exact (Legacy_data_error k w Hk).
  - exact (Helper_data_error k w Hk).
  - exact (HelperExt_data_error k' w Hk').
Qed.

Lemma data_xor_error_except_two_witness :
  no_nil_error (CallInternalError "lookup failed" (ErrorString "db down"))
    = true ∧
  no_nil_error_ext CallNoContent = true ∧
  (data_error_shape
     (is_InternalError
        (CallInternalError "lookup failed" (ErrorString "db down")))
     (is_Deleted (CallInternalError "lookup failed" (ErrorString "db down")))
     (Legacy.invoke
        (CallInternalError "lookup failed" (ErrorString "db down")))
     (fresh "2025-10-01T00:00:00Z") ∧
   data_error_shape
     (is_InternalError
        (CallInternalError "lookup failed" (ErrorString "db down")))
     (is_Deleted (CallInternalError "lookup failed" (ErrorString "db down")))
     (Helper.invoke
        (CallInternalError "lookup failed" (ErrorString "db down")))
     (fresh "2025-10-01T00:00:00Z") ∧
   data_error_shape (is_InternalError_ext CallNoContent)
     (is_Deleted_ext CallNoContent) (HelperExt.invoke CallNoContent)
     (fresh "2025-10-01T00:00:00Z")).
Proof.
  split; [reflexivity|]. split; [reflexivity|].
  apply (data_xor_error_except_two
           (CallInternalError "lookup failed" (ErrorString "db down"))
           CallNoContent (fresh "2025-10-01T00:00:00Z")); reflexivity.
Defined.

(** * C10: what a response depends on *)

(** C10, as stated, fails on the legacy helper: two [Success] calls with the
    same payload on requests with the same (empty) storage write different
    envelopes when the clock differs. *)
Lemma Legacy_Success_depends_on_clock :
  same_meta (fresh "2025-10-01T00:00:00Z") (fresh "2025-10-01T00:00:01Z") ∧
  writes (Legacy.Success (Str "payload")) (fresh "2025-10-01T00:00:00Z") ≠
  writes (Legacy.Success (Str "payload")) (fresh "2025-10-01T00:00:01Z") ∧
  ¬ deterministic (Legacy.Success (Str "payload")).
Proof.
  assert (Hne :
    writes (Legacy.Success (Str "payload")) (fresh "2025-10-01T00:00:00Z") ≠
    writes (Legacy.Success (Str "payload")) (fresh "2025-10-01T00:00:01Z")).
  { intros Heq.
    apply (f_equal (λ l, l.*2 ≫= λ e, option_list (field "meta" e))) in Heq.
    vm_compute in Heq. discriminate Heq. }
  split; [reflexivity|]. split; [exact Hne|].
  intros Hdet. apply Hne, Hdet. reflexivity.
Qed.

Section Determinism.
Variables w1 w2 : World.

Local Ltac by_method Hmeta :=
  try (match goal with err : error |- _ => destruct err end);
  unfold writes; run;
  rewrite ?drop_JSON by reflexivity; cbn [final Written];
  rewrite ?drop_all, ?Hmeta;
  reflexivity.

Lemma Helper_deterministic k :
  same_meta w1 w2 → writes (Helper.invoke k) w1 = writes (Helper.invoke k) w2.
Proof.
  unfold same_meta. intros Hmeta. destruct k; by_method Hmeta.
Qed.

Lemma HelperExt_deterministic k :
  same_meta w1 w2 →
  writes (HelperExt.invoke k) w1 = writes (HelperExt.invoke k) w2.
Proof.
  unfold same_meta. intros Hmeta.
  destruct k as [[]| | | |]; by_method Hmeta.
Qed.

(** The legacy helper reads the clock and never the storage. *)
Lemma Legacy_deterministic_in_clock k :
  Now w1 = Now w2 → writes (Legacy.invoke k) w1 = writes (Legacy.invoke k) w2.
Proof.
  intros Hnow. destruct k; by_method Hnow.
Qed.

End Determinism.

(** C10, amended: every method of src/responsehelper.go and of the later
    helper is deterministic in its arguments and the value stored under the
    request's ["meta"] key: two calls with equal arguments on requests with
    equal stored [meta] write the same status and the same envelope,
    whatever the time, the log or the rest of the storage. The methods of
    the legacy helper are deterministic in their arguments and the current
    time, which [Success], [Created] and [Deleted] write under [meta]. *)
Theorem response_depends_on_meta_only
    (k : call) (k' : call_ext) (w1 w2 v1 v2 : World) :
  same_meta w1 w2 →
  Now v1 = Now v2 →
  writes (Helper.invoke k) w1 = writes (Helper.invoke k) w2 ∧
  writes (HelperExt.invoke k') w1 = writes (HelperExt.invoke k') w2 ∧
  writes (Legacy.invoke k) v1 = writes (Legacy.invoke k) v2.
Proof.
  intros Hmeta Hnow. split; [|split].
  - by apply Helper_deterministic.
  - by apply HelperExt_deterministic.
  - by apply Legacy_deterministic_in_clock.
Qed.

Lemma response_depends_on_meta_only_witness :
  same_meta
    (gin.SetKey "meta" (Str "req-42") (fresh "2025-10-01T00:00:00Z"))
    (gin.SetKey "user" (Str "alice")
       (gin.SetKey "meta" (Str "req-42") (fresh "2026-01-01T12:30:00Z"))) ∧
  Now (fresh "2025-10-01T00:00:00Z") =
    Now (gin.SetKey "meta" (Str "req-42") (fresh "2025-10-01T00:00:00Z")) ∧
  (writes (Helper.invoke (CallSuccess (Str "payload")))
     (gin.SetKey "meta" (Str "req-42") (fresh "2025-10-01T00:00:00Z")) =
   writes (Helper.invoke (CallSuccess (Str "payload")))
     (gin.SetKey "user" (Str "alice")
        (gin.SetKey "meta" (Str "req-42") (fresh "2026-01-01T12:30:00Z"))) ∧
   writes (HelperExt.invoke CallNoContent)
     (gin.SetKey "meta" (Str "req-42") (fresh "2025-10-01T00:00:00Z")) =
   writes (HelperExt.invoke CallNoContent)
     (gin.SetKey "user" (Str "alice")
        (gin.SetKey "meta" (Str "req-42") (fresh "2026-01-01T12:30:00Z"))) ∧
   writes (Legacy.invoke (CallSuccess (Str "payload")))
     (fresh "2025-10-01T00:00:00Z") =
   writes (Legacy.invoke (CallSuccess (Str "payload")))
     (gin.SetKey "meta" (Str "req-42") (fresh "2025-10-01T00:00:00Z"))).
Proof.
  split; [reflexivity|]. split; [reflexivity|].
  apply (response_depends_on_meta_only
           (CallSuccess (Str "payload")) CallNoContent
           (gin.SetKey "meta" (Str "req-42") (fresh "2025-10-01T00:00:00Z"))
           (gin.SetKey "user" (Str "alice")
              (gin.SetKey "meta" (Str "req-42")
                 (fresh "2026-01-01T12:30:00Z")))
           (fresh "2025-10-01T00:00:00Z")
           (gin.SetKey "meta" (Str "req-42") (fresh "2025-10-01T00:00:00Z")));
    reflexivity.
Defined.

(** * Beyond the claims: what every call does to its request *)

Section Effects.
Variable w : World.

Local Ltac by_method :=
  try (match goal with err : error |- _ => destruct err end);
  unfold writes; run;
  rewrite ?drop_JSON by reflexivity; cbn [final Written];
  rewrite ?drop_all;
  first [ reflexivity
        | unfold appended, appended_logging; cbn [legacy_log];
          destruct w; cbn; by rewrite ?app_nil_r ].

Lemma Helper_only_appends k :
  final (Helper.invoke k w) = appended w (writes (Helper.invoke k) w).
Proof. destruct k; by_method. Qed.

Lemma HelperExt_only_appends k :
  final (HelperExt.invoke k w) = appended w (writes (HelperExt.invoke k) w).
Proof. destruct k as [[]| | | |]; by_method. Qed.

Lemma Legacy_appends_and_logs k :
  final (Legacy.invoke k w) =
  appended_logging w (legacy_log k) (writes (Legacy.invoke k) w).
Proof. destruct k; by_method. Qed.

End Effects.

(** X1: the only effect of a call of src/responsehelper.go or of the later
    helper is to append what it writes to the transport: the request
    storage, the clock and the log are as before, and so are the earlier
    responses. This holds for a call that panics as well, which appends
    nothing. *)
Theorem only_effect_is_the_response (k : call) (k' : call_ext) (w : World) :
  final (Helper.invoke k w) = appended w (writes (Helper.invoke k) w) ∧
  final (HelperExt.invoke k' w) = appended w (writes (HelperExt.invoke k') w).
Proof.
  split; [apply Helper_only_appends | apply HelperExt_only_appends].
Qed.

(** X2: the legacy helper has one more effect. [InternalError] logs the line
    ["Internal error: "] followed by the error (["<nil>"] for a nil one)
    before it builds the response, so the line is there even when the call
    then panics; no other legacy method logs. The storage and the clock are
    left as they were. *)
Theorem Legacy_logs_internal_errors (k : call) (w : World) :
  final (Legacy.invoke k w) =
  appended_logging w (legacy_log k) (writes (Legacy.invoke k) w).
Proof. apply Legacy_appends_and_logs. Qed.

(** The log of a legacy [InternalError] given a nil error. *)
Example Legacy_logs_nil_then_panics :
  Legacy.InternalError "lookup failed" NilError
    (fresh "2025-10-01T00:00:00Z") =
  Panic {| Keys := ∅; Written := []; Now := "2025-10-01T00:00:00Z";
           Logged := ["Internal error: <nil>"] |}.
Proof. reflexivity. Qed.

Section Returns.
Variable w : World.

Local Ltac by_method :=
  try (match goal with err : error |- _ => destruct err end);
  unfold returns_iff, writes; run;
  rewrite ?drop_JSON by reflexivity; cbn [final Written];
  rewrite ?drop_all; split; reflexivity.

Lemma Legacy_returns_iff k :
  returns_iff (no_nil_error k) (Legacy.invoke k) w.
Proof. destruct k; by_method. Qed.

Lemma Helper_returns_iff k :
  returns_iff (no_nil_error k) (Helper.invoke k) w.
Proof. destruct k; by_method. Qed.

Lemma HelperExt_returns_iff k :
  returns_iff (no_nil_error_ext k) (HelperExt.invoke k) w.
Proof. destruct k as [[]| | | |]; by_method. Qed.

End Returns.

(** X3: in each of the three helpers a call returns exactly when it was
    given no nil error, whatever its strings, payloads and the request hold;
    a call that returns has written one response and a call that panics has
    written none. *)
Theorem returns_unless_nil_error (k : call) (k' : call_ext) (w : World) :
  returns_iff (no_nil_error k) (Legacy.invoke k) w ∧
  returns_iff (no_nil_error k) (Helper.invoke k) w ∧
  returns_iff (no_nil_error_ext k') (HelperExt.invoke k') w.
Proof.
  auto using Legacy_returns_iff, Helper_returns_iff, HelperExt_returns_iff.
Qed.

(** * Beyond the claims: the contents of every envelope *)

Section Contents.
Variable w : World.

Local Ltac by_method Hk :=
  try (match goal with err : error |- _ => destruct err end);
  try discriminate Hk;
  eexists _, _; split; [sent|]; repeat split; try reflexivity.




Local Ltac keys_by_method Hk :=
  try (match goal with err : error |- _ => destruct err end);
  try discriminate Hk;
  eexists _, _; split; [sent|]; split;
  [ cbn [envelope_keys]; compute_done
  | repeat split; reflexivity ].

Lemma Legacy_keys k :
  no_nil_error k = true →
  keys_in_contract (stamps_time k) (is_SuccessWithPagination (Base k))
    (is_Deleted k) (Legacy.invoke k) w.
Proof. intros Hk. destruct k; keys_by_method Hk. Qed.

Lemma Helper_keys k :
  no_nil_error k = true →
  keys_in_contract true (is_SuccessWithPagination (Base k))
    (is_Deleted k) (Helper.invoke k) w.
Proof. intros Hk. destruct k; keys_by_method Hk. Qed.

Lemma HelperExt_keys k :
  no_nil_error_ext k = true →
  keys_in_contract true (is_SuccessWithPagination k)
    (is_Deleted_ext k) (HelperExt.invoke k) w.
Proof. intros Hk. destruct k as [[]| | | |]; keys_by_method Hk. Qed.

End Contents.



(** X5: in each of the three helpers, an envelope has no key other than
    [success], [data], [error], [meta], [message] and [pagination]; it always
    has [success]; it has [pagination] exactly for [SuccessWithPagination]
    and [message] exactly for [Deleted]. It has [meta] for every method of
    src/responsehelper.go and of the later helper, and in the legacy helper
    only for [Success], [Created] and [Deleted]. *)
Theorem envelope_keys_of_every_call (k : call) (k' : call_ext) (w : World) :
  no_nil_error k = true →
  no_nil_error_ext k' = true →
  keys_in_contract (stamps_time k) (is_SuccessWithPagination (Base k))
    (is_Deleted k) (Legacy.invoke k) w ∧
  keys_in_contract true (is_SuccessWithPagination (Base k))
    (is_Deleted k) (Helper.invoke k) w ∧
  keys_in_contract true (is_SuccessWithPagination k')
    (is_Deleted_ext k') (HelperExt.invoke k') w.
Proof.
  intros Hk Hk'. auto using Legacy_keys, Helper_keys, HelperExt_keys.
Qed.

Lemma envelope_keys_of_every_call_witness :
  no_nil_error (CallSuccessWithPagination (Slice [Int 1; Int 2]) (Int 3))
    = true ∧
  no_nil_error_ext (CallForbidden "admins only") = true ∧
  (keys_in_contract
     (stamps_time (CallSuccessWithPagination (Slice [Int 1; Int 2]) (Int 3)))
     (is_SuccessWithPagination
        (Base (CallSuccessWithPagination (Slice [Int 1; Int 2]) (Int 3))))
     (is_Deleted (CallSuccessWithPagination (Slice [Int 1; Int 2]) (Int 3)))
     (Legacy.invoke
        (CallSuccessWithPagination (Slice [Int 1; Int 2]) (Int 3)))
     (fresh "2025-10-01T00:00:00Z") ∧
   keys_in_contract true
     (is_SuccessWithPagination
        (Base (CallSuccessWithPagination (Slice [Int 1; Int 2]) (Int 3))))
     (is_Deleted (CallSuccessWithPagination (Slice [Int 1; Int 2]) (Int 3)))
     (Helper.invoke
        (CallSuccessWithPagination (Slice [Int 1; Int 2]) (Int 3)))
     (fresh "2025-10-01T00:00:00Z") ∧
   keys_in_contract true (is_SuccessWithPagination (CallForbidden "admins only"))
     (is_Deleted_ext (CallForbidden "admins only"))
     (HelperExt.invoke (CallForbidden "admins only"))
     (fresh "2025-10-01T00:00:00Z")).
Proof.
  split; [reflexivity|]. split; [reflexivity|].
  apply (envelope_keys_of_every_call
           (CallSuccessWithPagination (Slice [Int 1; Int 2]) (Int 3))
           (CallForbidden "admins only")
           (fresh "2025-10-01T00:00:00Z")); reflexivity.
Defined.

(** * Beyond the claims: the three helpers against each other *)

(** X6: on the eight methods they share, the later helper does exactly what
    src/responsehelper.go does: the same result in the same world, for every
    call and every request, a nil error included. *)
Theorem later_helper_extends_helper (k : call) (w : World) :
  HelperExt.invoke (Base k) w = Helper.invoke k w.
Proof. destruct k; reflexivity. Qed.

Section AgainstLegacy.
Variable w : World.

Lemma stored_after_SetKey key value :
  Keys (gin.SetKey key value w) !! key = Some value.
Proof. cbn. apply lookup_insert_eq. Qed.

Local Ltac by_method :=
  try (match goal with err : error |- _ => destruct err end);
  unfold writes; run; rewrite ?stored_after_SetKey;
  rewrite ?drop_JSON by reflexivity; cbn [final Written];
  rewrite ?drop_all; reflexivity.

Lemma Legacy_as_Helper k :
  writes (Legacy.invoke k) w =
  if stamps_time k
  then writes (Helper.invoke k) (gin.SetKey "meta" (Str (Now w)) w)
  else without_meta <$> writes (Helper.invoke k) w.
Proof. destruct k; by_method. Qed.

End AgainstLegacy.

(** X7: the legacy helper against src/responsehelper.go. For [Success],
    [Created] and [Deleted] the legacy response is the one the newer helper
    writes on a request whose ["meta"] holds the current time; for every
    other method it is the newer helper's response with the [meta] entry
    removed from the envelope. Status, [success], [data], [error],
    [pagination] and [message] are the same in both. *)
Theorem Legacy_is_Helper_without_storage (k : call) (w : World) :
  writes (Legacy.invoke k) w =
  if stamps_time k
  then writes (Helper.invoke k) (gin.SetKey "meta" (Str (Now w)) w)
  else without_meta <$> writes (Helper.invoke k) w.
Proof. apply Legacy_as_Helper. Qed.

Section StoredNil.
Variable w : World.
Hypothesis Hunset : Keys w !! "meta" = None.

Local Ltac by_method :=
  try (match goal with err : error |- _ => destruct err end);
  unfold writes; run; rewrite ?stored_after_SetKey, ?Hunset;
  rewrite ?drop_JSON by reflexivity; cbn [final Written];
  rewrite ?drop_all; reflexivity.

Lemma Helper_unset_as_nil k :
  writes (Helper.invoke k) w =
  writes (Helper.invoke k) (gin.SetKey "meta" Nil w).
Proof. destruct k; by_method. Qed.

Lemma HelperExt_unset_as_nil k :
  writes (HelperExt.invoke k) w =
  writes (HelperExt.invoke k) (gin.SetKey "meta" Nil w).
Proof. destruct k as [[]| | | |]; by_method. Qed.

End StoredNil.

(** X8: the helpers drop the [exists] result of [c.Get], so a request on
    which nothing was stored under ["meta"] gets the same status and
    envelope as one on which [nil] was stored: a client cannot tell the two
    apart. *)
Theorem unset_meta_same_as_nil (k : call) (k' : call_ext) (w : World) :
  Keys w !! "meta" = None →
  writes (Helper.invoke k) w =
    writes (Helper.invoke k) (gin.SetKey "meta" Nil w) ∧
  writes (HelperExt.invoke k') w =
    writes (HelperExt.invoke k') (gin.SetKey "meta" Nil w).
Proof.
  intros Hunset. split.
  - by apply Helper_unset_as_nil.
  - by apply HelperExt_unset_as_nil.
Qed.

Lemma unset_meta_same_as_nil_witness :
  Keys (gin.SetKey "user" (Str "alice") (fresh "2025-10-01T00:00:00Z"))
    !! "meta" = None ∧
  (writes (Helper.invoke (CallCreated (Str "payload")))
     (gin.SetKey "user" (Str "alice") (fresh "2025-10-01T00:00:00Z")) =
   writes (Helper.invoke (CallCreated (Str "payload")))
     (gin.SetKey "meta" Nil
        (gin.SetKey "user" (Str "alice") (fresh "2025-10-01T00:00:00Z"))) ∧
   writes (HelperExt.invoke (CallForbidden "admins only"))
     (gin.SetKey "user" (Str "alice") (fresh "2025-10-01T00:00:00Z")) =
   writes (HelperExt.invoke (CallForbidden "admins only"))
     (gin.SetKey "meta" Nil
        (gin.SetKey "user" (Str "alice") (fresh "2025-10-01T00:00:00Z")))).
Proof.
  split; [reflexivity|].
  apply (unset_meta_same_as_nil (CallCreated (Str "payload"))
           (CallForbidden "admins only")
           (gin.SetKey "user" (Str "alice") (fresh "2025-10-01T00:00:00Z")));
    reflexivity.
Defined.

(** * Beyond the claims: calls in sequence *)

Section Sequence.
Variable w : World.

(** Running [h] then [h'] when [h] returns. *)
Lemma writes_then {A B} (h : Handler A) (h' : Handler B) a w' :
  h w = Ok a w' →
  Written w' = Written w ++ writes h w →
  Written (final (h' w')) = Written w' ++ writes h' w' →
  writes (h ;; h') w = writes h w ++ writes h' w'.
Proof.
  intros Hh Hw Hw'. unfold writes at 1.
  unfold mbind, Handler_bind. rewrite Hh, Hw', Hw, <- app_assoc.
  by rewrite drop_app_length.
Qed.

(** Running [h] then [h'] when [h] panics. *)
Lemma writes_then_panic {A B} (h : Handler A) (h' : Handler B) w' :
  h w = Panic w' → writes (h ;; h') w = writes h w.
Proof.
  intros Hh. unfold writes, mbind, Handler_bind. by rewrite Hh.
Qed.

Lemma HelperExt_then k1 k2 :
  writes (HelperExt.invoke k1 ;; HelperExt.invoke k2) w =
  writes (HelperExt.invoke k1) w ++
  (if no_nil_error_ext k1 then writes (HelperExt.invoke k2) w else []).
Proof.
  pose proof (HelperExt_only_appends w k1) as Hfinal.
  destruct (HelperExt_returns_iff w k1) as [Hret Hlen].
  destruct (HelperExt.invoke k1 w) as [[] w1|w1] eqn:Hrun; cbn in Hret;
    rewrite <- Hret; cbn [final] in Hfinal.
  - rewrite (writes_then _ _ () w1 Hrun).
    + f_equal. apply HelperExt_deterministic. by rewrite Hfinal.
    + by rewrite Hfinal.
    + by rewrite (HelperExt_only_appends w1 k2).
  - rewrite (writes_then_panic _ _ w1 Hrun). by rewrite app_nil_r.
Qed.

End Sequence.

(** X9: the later helper does not stop a second response. When a handler
    calls one method and then another on the same request, the transport
    gets the response of the first followed by the response the second
    would have written alone; only a first call that panics on a nil error
    keeps the second from running. *)
Theorem second_call_writes_again (k1 k2 : call_ext) (w : World) :
  writes (HelperExt.invoke k1 ;; HelperExt.invoke k2) w =
  writes (HelperExt.invoke k1) w ++
  (if no_nil_error_ext k1 then writes (HelperExt.invoke k2) w else []).
Proof. apply HelperExt_then. Qed.

(** A handler that forgets to return after [BadRequest]. *)
Example BadRequest_then_Success :
  fst <$> writes (HelperExt.BadRequest "Invalid input" "name is required" ;;
                  HelperExt.Success (Str "payload"))
            (fresh "2025-10-01T00:00:00Z") = [400; 200].
Proof. reflexivity. Qed.

(** * Beyond the claims: the success family *)

(** X10: the success methods of the later helper share one envelope.
    [Success] writes it with status 200 and the payload, unchanged, under
    [data]; [Created] writes the same envelope with status 201;
    [SuccessWithPagination] writes it with status 200 and one more entry,
    [pagination], holding its second argument unchanged; and [NoContent]
    writes with status 204 the envelope of [Success] given [nil]. *)
Theorem success_family_shares_envelope (data pagination : any) (w : World) :
  ∃ m m0 : gmap string any,
    sends (HelperExt.Success data) w 200 (Map m) ∧
    m !! "data" = Some data ∧
    m !! "success" = Some (Bool true) ∧
    m !! "pagination" = None ∧
    sends (HelperExt.Created data) w 201 (Map m) ∧
    sends (HelperExt.SuccessWithPagination data pagination) w 200
      (Map (<["pagination" := pagination]> m)) ∧
    sends (HelperExt.Success Nil) w 200 (Map m0) ∧
    sends HelperExt.NoContent w 204 (Map m0).
Proof.
  eexists _, _. split; [sent|].
  repeat split; try reflexivity; sent.
Qed.

(** * Beyond the claims: the [Login] handler *)

Lemma append_String c (s t : string) : String c s +:+ t = String c (s +:+ t).
Proof. reflexivity. Qed.

Lemma prefix_app (sub s : string) :
  String.prefix sub s = true ↔ ∃ rest, s = sub +:+ rest.
Proof.
  revert s. induction sub as [|c sub IH]; intros [|c' s]; cbn.
  - split; [by exists "" | done].
  - split; [by eexists | done].
  - split; [done | intros [rest Hrest]; discriminate Hrest].
  - destruct (Ascii.ascii_dec c c') as [<-|Hne].
    + rewrite IH. split; intros [rest Hrest]; exists rest;
        rewrite append_String in *; congruence.
    + split; [done | intros [rest Hrest]].
      rewrite append_String in Hrest. congruence.
Qed.

(** [Contains] finds [substr] exactly when it occurs somewhere in [s]. *)
Lemma Contains_spec (s substr : string) :
  Contains s substr = true ↔ ∃ before after, s = before +:+ substr +:+ after.
Proof.
  induction s as [|c s IH]; cbn [Contains].
  - rewrite orb_false_r, prefix_app. split.
    + intros [rest Hrest]. by exists "", rest.
    + intros ([|] & after & Hs); [by exists after | discriminate Hs].
  - rewrite orb_true_iff, prefix_app, IH. split.
    + intros [[rest Hrest] | (before & after & ->)].
      * by exists "", rest.
      * exists (String c before), after. by rewrite append_String.
    + intros ([|c' before] & after & Hs).
      * left. by exists after.
      * right. exists before, after. rewrite append_String in Hs.
        congruence.
Qed.

(** Reading the text of a non-nil error is a plain step. *)
Lemma Error_then {A} text (f : string → Handler A) :
  Error (ErrorString text) ≫= f = f text.
Proof. reflexivity. Qed.

Section LoginHandler.
Variables (u : utils) (w : World).
Hypothesis Hset : sentinels_set u = true.

Local Ltac sentinels :=
  unfold sentinels_set in Hset; unfold Login, Login_status;
  destruct u as [e1 e2 e3 e4 reaction];
  cbn [ErrBadRequest ErrDetailBadRequestJSONPayload ErrNotFound
       ErrEmailorPasswordEmpty Reaction] in *;
  destruct e1, e2, e3 as [|sentinel], e4; try discriminate Hset.

Lemma Login_sends bindErr token err :
  ∃ envelope,
    sends (Login u bindErr token err) w (Login_status u bindErr err)
      envelope ∧
    field "success" envelope =
      Some (Bool (is_2xx (Login_status u bindErr err))).
Proof.
  sentinels.
  destruct bindErr as [|bad]; [destruct err as [|failure]|].
  - eexists. split; [sent | reflexivity].
  - rewrite !Error_then.
    destruct (Contains failure sentinel);
      (eexists; split; [sent | reflexivity]).
  - eexists. split; [sent | reflexivity].
Qed.

Lemma Login_token bindErr token err :
  ∃ code envelope,
    sends (Login u bindErr token err) w code envelope ∧
    (field "data" envelope = Some (Map {[ "token" := Str token ]}) ↔
     bindErr = NilError ∧ err = NilError).
Proof.
  sentinels.
  destruct bindErr as [|bad]; [destruct err as [|failure]|].
  - eexists _, _. split; [sent|]. done.
  - rewrite !Error_then.
    destruct (Contains failure sentinel);
      (eexists _, _; split; [sent|]);
      (split; [intros Hdata; vm_compute in Hdata; discriminate Hdata
              | intros [_ Herr]; discriminate Herr]).
  - eexists _, _. split; [sent|].
    split; [intros Hdata; vm_compute in Hdata; discriminate Hdata
           | intros [Hbind _]; discriminate Hbind].
Qed.

Lemma Login_failure token failure notFound :
  ErrNotFound u = ErrorString notFound →
  ∃ code envelope,
    sends (Login u NilError token (ErrorString failure)) w code envelope ∧
    code = (if Contains failure notFound then 401 else 500) ∧
    error_field "details" envelope =
      (if Contains failure notFound then None else Some (Str failure)) ∧
    (Contains failure notFound = false →
     error_field "message" envelope =
       Some (Str (Reaction u (ErrorString failure)))).
Proof.
  sentinels. intros [= ->]. rewrite !Error_then.
  destruct (Contains failure notFound);
    (eexists _, _; split; [sent|]); repeat split; done.
Qed.

End LoginHandler.

(** X11: given sentinel errors that are set, the README's [Login] handler
    never panics and answers every request exactly once: 400 when the body
    does not bind, otherwise 401 when the service's error text contains the
    not-found sentinel's, 500 for any other service error (so
    [InternalError] is only ever given a non-nil error), and 200 when the
    service returns none; [success] is true for the 200 only. *)
Theorem Login_answers_once
    (u : utils) (bindErr : error) (token : string) (err : error)
    (w : World) :
  sentinels_set u = true →
  ∃ envelope,
    sends (Login u bindErr token err) w (Login_status u bindErr err)
      envelope ∧
    field "success" envelope =
      Some (Bool (is_2xx (Login_status u bindErr err))).
Proof. intros Hset. by apply Login_sends. Qed.

(** X12: given sentinel errors that are set, the response of [Login] holds
    the token (as [data], [{"token": token}]) exactly when the body bound
    and the service returned no error. *)
Theorem Login_token_only_on_success
    (u : utils) (bindErr : error) (token : string) (err : error)
    (w : World) :
  sentinels_set u = true →
  ∃ code envelope,
    sends (Login u bindErr token err) w code envelope ∧
    (field "data" envelope = Some (Map {[ "token" := Str token ]}) ↔
     bindErr = NilError ∧ err = NilError).
Proof. intros Hset. by apply Login_token. Qed.

(** X13: given sentinel errors that are set, when the service fails,
    [Login] shows the client the service's error text (as [details] of a
    500, with the reaction as [message]) unless that text contains the
    not-found sentinel's text, in which case it answers 401 with no
    [details]. *)
Theorem Login_shows_service_error
    (u : utils) (token failure notFound : string) (w : World) :
  sentinels_set u = true →
  ErrNotFound u = ErrorString notFound →
  ∃ code envelope,
    sends (Login u NilError token (ErrorString failure)) w code envelope ∧
    code = (if Contains failure notFound then 401 else 500) ∧
    error_field "details" envelope =
      (if Contains failure notFound then None else Some (Str failure)) ∧
    (Contains failure notFound = false →
     error_field "message" envelope =
       Some (Str (Reaction u (ErrorString failure)))).
Proof. intros Hset HnotFound. by apply Login_failure. Qed.

Lemma Login_answers_once_witness :
  sentinels_set example_utils = true ∧
  ∃ envelope,
    sends (Login example_utils NilError "" (ErrorString "connection reset"))
      (fresh "2025-10-01T00:00:00Z")
      (Login_status example_utils NilError (ErrorString "connection reset"))
      envelope ∧
    field "success" envelope =
      Some (Bool (is_2xx (Login_status example_utils NilError
                            (ErrorString "connection reset")))).
Proof.
  split; [reflexivity|].
  apply (Login_answers_once example_utils NilError ""
           (ErrorString "connection reset") (fresh "2025-10-01T00:00:00Z")).
  reflexivity.
Defined.

Lemma Login_token_only_on_success_witness :
  sentinels_set example_utils = true ∧
  ∃ code envelope,
    sends (Login example_utils NilError "eyJhbGciOi" NilError)
      (fresh "2025-10-01T00:00:00Z") code envelope ∧
    (field "data" envelope = Some (Map {[ "token" := Str "eyJhbGciOi" ]}) ↔
     NilError = NilError ∧ NilError = NilError).
Proof.
  split; [reflexivity|].
  apply (Login_token_only_on_success example_utils NilError "eyJhbGciOi"
           NilError (fresh "2025-10-01T00:00:00Z")).
  reflexivity.
Defined.

Lemma Login_shows_service_error_witness :
  sentinels_set example_utils = true ∧
  ErrNotFound example_utils = ErrorString "not found" ∧
  ∃ code envelope,
    sends (Login example_utils NilError ""
             (ErrorString "user not found in store"))
      (fresh "2025-10-01T00:00:00Z") code envelope ∧
    code = (if Contains "user not found in store" "not found"
            then 401 else 500) ∧
    error_field "details" envelope =
      (if Contains "user not found in store" "not found"
       then None else Some (Str "user not found in store")) ∧
    (Contains "user not found in store" "not found" = false →
     error_field "message" envelope =
       Some (Str (Reaction example_utils
                    (ErrorString "user not found in store")))).
Proof.
  split; [reflexivity|]. split; [reflexivity|].
  apply (Login_shows_service_error example_utils ""
           "user not found in store" "not found"
           (fresh "2025-10-01T00:00:00Z")); reflexivity.
Defined.

(** The statuses of [Login] on the four kinds of outcome. *)
Example Login_statuses :
  Login_status example_utils (ErrorString "EOF") NilError = 400 ∧
  Login_status example_utils NilError
    (ErrorString "user not found in store") = 401 ∧
  Login_status example_utils NilError (ErrorString "connection reset") = 500 ∧
  Login_status example_utils NilError NilError = 200.
Proof. repeat split. Qed.
